(** * woke pytypes generator: a shallow embedding and its verified properties

    The development follows [woke/development/pytypes_generator.py]:
    - [Py]: the fragment of the Python runtime the generator relies on
      (exceptions, [str] methods, [int()], [bytes.fromhex], [keyword]);
    - [Opcodes]: [_parse_opcodes] and [_parse_source_map];
    - [Sanitizer]: the class [NameSanitizer];
    - [TypeMapper]: [parse_type_and_import], the import registry and the
      getter synthesis for public state variables;
    - [Template]: the revert scan and the registration of the metadata
      and of the inheritance of [generate_contract_template];
    - [Scheduler]: the unit ordering loop of [generate_types].

    Strings are ASCII byte strings; Python integers are [Z]; a Python
    exception is a value of [Py.exn] carried by [Py.result]. *)

From Stdlib Require Import ZArith Ascii String List Bool Lia Permutation.
From stdpp Require Import base decidable option list gmap strings pretty fin_maps.
Import ListNotations.

Local Open Scope string_scope.
Local Open Scope Z_scope.

(* ===================================================================== *)
(** ** The Python runtime fragment *)
(* ===================================================================== *)

Module Py.

(** The exception classes raised on the modelled paths. *)
Inductive exn : Type :=
| ValueError
| IndexError
| KeyError
| AttributeError
| AssertionError
| NotImplementedError
| OutOfFuel.
(** [OutOfFuel] is no Python exception: it marks a [while] loop of the
    model whose fuel ran out before the loop condition turned false. *)

Inductive result (A : Type) : Type :=
| Ok (a : A)
| Raise (e : exn).
Global Arguments Ok {A} a.
Global Arguments Raise {A} e.

Definition bind {A B} (r : result A) (k : A -> result B) : result B :=
  match r with
  | Ok a => k a
  | Raise e => Raise e
  end.


Definition rmap {A B} (f : A -> B) (r : result A) : result B :=
  match r with
  | Ok a => Ok (f a)
  | Raise e => Raise e
  end.

(** [assert b] *)
Definition assert (b : bool) : result unit :=
  if b then Ok tt else Raise AssertionError.

(** *** [str] methods *)

(** [s.startswith(p)] *)
Definition startswith (p s : string) : bool := String.prefix p s.

(** [s.endswith(p)]: some suffix of [s] is [p]. *)
Fixpoint endswith (p s : string) : bool :=
  String.eqb s p ||
  match s with
  | EmptyString => false
  | String _ s' => endswith p s'
  end.

(** [s[n:]] for a non-negative literal [n]. *)
Fixpoint drop_str (n : nat) (s : string) : string :=
  match n, s with
  | O, _ => s
  | S n', String _ s' => drop_str n' s'
  | S _, EmptyString => EmptyString
  end.

(** [s[-n:]] for a positive literal [n]: the last [n] characters, the
    whole string when it is shorter. *)
Definition last_str (n : nat) (s : string) : string :=
  drop_str (String.length s - n)%nat s.

(** [s.split(sep)] for a one-character separator: every occurrence
    cuts, empty pieces are kept, and the empty string gives [[""]]. *)
Fixpoint split (sep : ascii) (s : string) : list string :=
  match s with
  | EmptyString => [EmptyString]
  | String c s' =>
      if Ascii.eqb c sep then EmptyString :: split sep s'
      else match split sep s' with
           | [] => [String c EmptyString]
           | w :: ws => String c w :: ws
           end
  end.

(** [sep.join(l)] *)
Fixpoint join (sep : string) (l : list string) : string :=
  match l with
  | [] => EmptyString
  | [x] => x
  | x :: rest => x +:+ sep +:+ join sep rest
  end.

(** [s[:-n]] for a positive literal [n]: all but the last [n]
    characters, nothing when the string is shorter. *)
Definition drop_last_str (n : nat) (s : string) : string :=
  String.substring 0 (String.length s - n) s.

Fixpoint filter_str (f : ascii -> bool) (s : string) : string :=
  match s with
  | EmptyString => EmptyString
  | String c s' => if f c then String c (filter_str f s') else filter_str f s'
  end.

(** [s.replace(a, b)] for one-character [a] and [b]. *)
Fixpoint replace_char (a b : ascii) (s : string) : string :=
  match s with
  | EmptyString => EmptyString
  | String c s' =>
      String (if Ascii.eqb c a then b else c) (replace_char a b s')
  end.

Definition isdigit (c : ascii) : bool :=
  let n := N_of_ascii c in ((48 <=? n) && (n <=? 57))%N.

(** [ch.isalnum()] on an ASCII character: a digit or a letter.  For a
    character outside ASCII Python consults the Unicode database,
    which lies outside the strings of this development. *)
Definition isalnum (c : ascii) : bool :=
  let n := N_of_ascii c in
  (isdigit c || (65 <=? n) && (n <=? 90) || (97 <=? n) && (n <=? 122))%N.

(** *** [int(s)] and [int(s, 16)] *)

(** Characters [int()] strips around a literal given as an ASCII
    [str]: tab, line feed, vertical tab, form feed, carriage return and
    space.  (The separators 28 to 31 are whitespace for [str.isspace]
    but not for [int()], which raises [ValueError] on them.) *)
Definition is_space (c : ascii) : bool :=
  let n := N_of_ascii c in
  ((9 <=? n) && (n <=? 13) || (n =? 32))%N.

(** [sys.get_int_max_str_digits()], the default of CPython: a literal
    with more digits is refused in every base that is no power of
    two. *)
Definition int_max_str_digits : Z := 4300.

(** Value of a digit character in bases up to 36. *)
Definition digit_value (c : ascii) : option Z :=
  let n := Z.of_N (N_of_ascii c) in
  if (48 <=? n) && (n <=? 57) then Some (n - 48)
  else if (97 <=? n) && (n <=? 122) then Some (n - 87)
  else if (65 <=? n) && (n <=? 90) then Some (n - 55)
  else None.

Definition digit_in (base : Z) (c : ascii) : option Z :=
  match digit_value c with
  | Some d => if d <? base then Some d else None
  | None => None
  end.

Fixpoint skip_spaces (s : string) : string :=
  match s with
  | String c s' => if is_space c then skip_spaces s' else s
  | EmptyString => s
  end.

(** The digit scan of [PyLong_FromString]: digits and single
    underscores between them.  Returns the value, the number of digits
    read, whether the last character read was an underscore, and the
    unread rest; [None] when two underscores are adjacent. *)
Fixpoint scan_digits (base : Z) (s : string) (acc : Z) (ndigits : nat)
         (prev_us : bool) : option (Z * nat * bool * string) :=
  match s with
  | EmptyString => Some (acc, ndigits, prev_us, s)
  | String c s' =>
      if Ascii.eqb c "_"%char then
        if prev_us then None
        else scan_digits base s' acc ndigits true
      else
        match digit_in base c with
        | Some d => scan_digits base s' (acc * base + d) (S ndigits) false
        | None => Some (acc, ndigits, prev_us, s)
        end
  end.

Definition strip_sign (s : string) : bool * string :=
  match s with
  | String "+" s' => (false, s')
  | String "-" s' => (true, s')
  | _ => (false, s)
  end.

(** A [0x] or [0X] prefix, read only in base 16; one underscore may
    follow it. *)
Definition strip_prefix (base : Z) (s : string) : string :=
  if base =? 16 then
    match s with
    | String "0" (String x s') =>
        if Ascii.eqb x "x"%char || Ascii.eqb x "X"%char then
          match s' with
          | String "_" s'' => s''
          | _ => s'
          end
        else s
    | _ => s
    end
  else s.

(** [int(s, base)] for [base] 10 or 16. *)
Definition int (base : Z) (s : string) : result Z :=
  let '(neg, s1) := strip_sign (skip_spaces s) in
  let s2 := strip_prefix base s1 in
  match s2 with
  | String "_" _ => Raise ValueError
  | _ =>
      match scan_digits base s2 0 O false with
      | None => Raise ValueError
      | Some (v, nd, prev_us, rest) =>
          if prev_us then Raise ValueError
          else if Nat.eqb nd 0 then Raise ValueError
          else if negb (base =? 16) && (int_max_str_digits <? Z.of_nat nd)
          then Raise ValueError
          else match skip_spaces rest with
               | EmptyString => Ok (if neg then - v else v)
               | _ => Raise ValueError
               end
      end
  end.

(** [str(n)] and [f"{n}"] for an integer. *)
Definition str_of_int (n : Z) : string := pretty n.

(** *** [bytes.fromhex] *)

(** Two hexadecimal digits per byte; ASCII whitespace is skipped
    between bytes, never inside one. *)
Definition is_hex_space (c : ascii) : bool :=
  let n := N_of_ascii c in
  ((9 <=? n) && (n <=? 13) || (n =? 32))%N.

Fixpoint fromhex (s : string) : result (list Z) :=
  match s with
  | EmptyString => Ok []
  | String c s' =>
      if is_hex_space c then fromhex s'
      else
        match digit_in 16 c, s' with
        | Some hi, String c2 s'' =>
            match digit_in 16 c2 with
            | Some lo =>
                bind (fromhex s'') (fun bs => Ok ((hi * 16 + lo) :: bs))
            | None => Raise ValueError
            end
        | _, _ => Raise ValueError
        end
  end.

(** *** [keyword.iskeyword] *)

Definition kwlist : list string :=
  [ "False"; "None"; "True"; "and"; "as"; "assert"; "async"; "await";
    "break"; "class"; "continue"; "def"; "del"; "elif"; "else"; "except";
    "finally"; "for"; "from"; "global"; "if"; "import"; "in"; "is";
    "lambda"; "nonlocal"; "not"; "or"; "pass"; "raise"; "return"; "try";
    "while"; "with"; "yield" ].

(** [x in xs] for strings. *)
Definition str_in (x : string) (xs : list string) : bool :=
  existsb (String.eqb x) xs.

Definition iskeyword (name : string) : bool := str_in name kwlist.

End Py.

Notation "'do' x <- e1 ; e2" := (Py.bind e1 (fun x => e2))
  (at level 10, x name, e1 at level 100, e2 at level 200).
Notation "'do_' e1 ; e2" := (Py.bind e1 (fun _ => e2))
  (at level 10, e1 at level 100, e2 at level 200).

(** Splitting a chain of [||] in a hypothesis, one link at a time and
    without unfolding the links. *)
Ltac split_orb_false H :=
  repeat match type of H with
         | (_ || _) = false => apply orb_false_iff in H as [H ?]
         end.

Ltac split_orb_true H :=
  repeat match type of H with
         | (_ || _) = true => apply orb_true_iff in H as [H|H]
         end.

(* ===================================================================== *)
(** ** Bytecode and source-map decoding *)
(* ===================================================================== *)

Module Opcodes.
Import Py.

(** One row of [pc_op_map]: [(pc, opcode, size, argument)]. *)
Record instruction : Type := Instr {
  i_pc : Z;
  i_op : string;
  i_size : Z;
  i_arg : option Z
}.

(** The body of the [for] loop of [_parse_opcodes], over the tokens
    still to visit; [rest] starts at [opcodes_spl[i + 1]]. *)
Fixpoint parse_opcodes_loop (toks : list string) (pc : Z) (ignore : bool)
         (pc_op_map : list instruction) : result (list instruction) :=
  match toks with
  | [] => Ok pc_op_map
  | opcode :: rest =>
      if ignore then parse_opcodes_loop rest pc false pc_op_map
      else if negb (startswith "PUSH" opcode) then
        parse_opcodes_loop rest (pc + 1) false
          (pc_op_map ++ [Instr pc opcode 1 None])
      else
        do n <- int 10 (drop_str 4 opcode);
        let size := n + 1 in
        do tok <- match rest with
                  | [] => Raise IndexError
                  | t :: _ => Ok t
                  end;
        do arg <- int 16 tok;
        parse_opcodes_loop rest (pc + size) true
          (pc_op_map ++ [Instr pc opcode size (Some arg)])
  end.

Definition _parse_opcodes (opcodes : string) : result (list instruction) :=
  parse_opcodes_loop (split " " opcodes) 0 false [].

(** [last_data = [-1, -1, -1, None, None]] *)
Record last_data : Type := LastData {
  ld0 : Z; ld1 : Z; ld2 : Z;
  ld3 : option string; ld4 : option string
}.

Definition last_data_init : last_data := LastData (-1) (-1) (-1) None None.

(** [last_data[x] = int(v)] for [x < 3], [last_data[x] = v] otherwise;
    the list has five slots. *)
Definition set_field (ld : last_data) (x : nat) (v : string)
  : result last_data :=
  match x with
  | 0%nat => do n <- int 10 v; Ok (LastData n (ld1 ld) (ld2 ld) (ld3 ld) (ld4 ld))
  | 1%nat => do n <- int 10 v; Ok (LastData (ld0 ld) n (ld2 ld) (ld3 ld) (ld4 ld))
  | 2%nat => do n <- int 10 v; Ok (LastData (ld0 ld) (ld1 ld) n (ld3 ld) (ld4 ld))
  | 3%nat => Ok (LastData (ld0 ld) (ld1 ld) (ld2 ld) (Some v) (ld4 ld))
  | 4%nat => Ok (LastData (ld0 ld) (ld1 ld) (ld2 ld) (ld3 ld) (Some v))
  | _ => Raise IndexError
  end.

(** [for x in range(len(source_spl))], from index [x] on. *)
Fixpoint update_fields (source_spl : list string) (x : nat) (ld : last_data)
  : result last_data :=
  match source_spl with
  | [] => Ok ld
  | v :: rest =>
      if String.eqb v "" then update_fields rest (S x) ld
      else do ld' <- set_field ld x v; update_fields rest (S x) ld'
  end.

(** A value of [pc_map]: [(start, end, file_id, jump)]. *)
Definition pc_entry : Type := Z * Z * Z * option string.

(** The [for] loop of [_parse_source_map]; [instrs] starts at
    [pc_op_map[i]]. *)
Fixpoint parse_source_map_loop (items : list string)
         (instrs : list instruction) (ld : last_data)
         (pc_map : gmap Z pc_entry) : result (gmap Z pc_entry) :=
  match items with
  | [] => Ok pc_map
  | sm_item :: items' =>
      match instrs with
      | [] => Raise IndexError
      | ins :: instrs' =>
          do ld' <- update_fields (split ":" sm_item) 0 ld;
          parse_source_map_loop items' instrs' ld'
            (<[i_pc ins := (ld0 ld', ld0 ld' + ld1 ld', ld2 ld', ld3 ld')]> pc_map)
      end
  end.

Definition _parse_source_map (source_map : string)
           (pc_op_map : list instruction) : result (gmap Z pc_entry) :=
  parse_source_map_loop (split ";" source_map) pc_op_map last_data_init ∅.

(** *** What a well-formed instruction table looks like *)

Definition is_push (ins : instruction) : bool := startswith "PUSH" (i_op ins).

(** The declared size [n] of [PUSHn]. *)
Definition declared_size (op : string) : result Z := int 10 (drop_str 4 op).

(** A push of declared size [n] occupies [n + 1] bytes and carries its
    operand; any other opcode occupies one byte and carries none. *)
Definition sized (ins : instruction) : Prop :=
  if is_push ins
  then (exists n, declared_size (i_op ins) = Ok n /\ i_size ins = n + 1)
       /\ is_Some (i_arg ins)
  else i_size ins = 1 /\ i_arg ins = None.

(** Program counters accumulate the sizes, starting from [pc]. *)
Fixpoint accumulates (pc : Z) (l : list instruction) : Prop :=
  match l with
  | [] => True
  | ins :: l' =>
      i_pc ins = pc /\ sized ins /\ accumulates (pc + i_size ins) l'
  end.

Definition end_pc (pc : Z) (l : list instruction) : Z :=
  fold_left (fun p ins => p + i_size ins) l pc.

Definition count_push (l : list instruction) : nat :=
  List.length (List.filter is_push l).

End Opcodes.

(* ===================================================================== *)
(** ** Identifier sanitizer *)
(* ===================================================================== *)

Module Sanitizer.
Import Py.

(** *** Declarations and their structural parents

    AST nodes are Python objects compared and hashed by identity; the
    model gives every node a number as its identity.  A declaration
    carries its name and its parent node. *)

Record contract_definition : Type := Contract {
  c_id : nat;
  c_name : string;
  (** [contract.parent.source_unit_name] *)
  c_source_unit : string
}.

(** The owner of a [ParameterList]. *)
Inductive param_owner : Type :=
| OwnerFunction (f : nat)
| OwnerEvent (e : nat)
| OwnerError (e : nat)
| OwnerOther.

Inductive ir_parent : Type :=
| InSourceUnit (source_unit_name : string)
| InContract (c : contract_definition)
| InStruct (s : nat)
| InEnum (e : nat)
| InParameterList (owner : param_owner)
| InOther.

Record declaration : Type := Decl {
  d_id : nat;
  d_name : string;
  d_parent : ir_parent
}.

(** A contract seen as a declaration: its parent is its source unit. *)
Definition contract_decl (c : contract_definition) : declaration :=
  Decl (c_id c) (c_name c) (InSourceUnit (c_source_unit c)).

(** *** Python objects met by the membership tests

    The rename tables are dicts from declaration objects to strings.
    [name in set(d)] iterates the keys of [d], [name in
    set(d.values())] its values; a string never equals a declaration
    object. *)
Inductive pyobj : Type :=
| PyStr (s : string)
| PyDecl (id : nat).

Definition py_eq (a b : pyobj) : bool :=
  match a, b with
  | PyStr s, PyStr t => String.eqb s t
  | PyDecl i, PyDecl j => Nat.eqb i j
  | _, _ => false
  end.

Definition py_in (x : pyobj) (xs : list pyobj) : bool := existsb (py_eq x) xs.

(** [set(d)] and [set(d.values())] of a rename table. *)
Definition keys_of (d : gmap nat string) : list pyobj :=
  (fun kv => PyDecl (fst kv)) <$> map_to_list d.
Definition values_of (d : gmap nat string) : list pyobj :=
  (fun kv => PyStr (snd kv)) <$> map_to_list d.

(** *** Reserved identifiers *)

(** [range(start, stop, step)] for a positive step, as [count] values. *)
Fixpoint range (start step : Z) (count : nat) : list Z :=
  match count with
  | O => []
  | S n => start :: range (start + step) step n
  end.

Definition global_reserved : list string :=
  [ "Dict"; "List"; "Mapping"; "Set"; "Tuple"; "Union"; "Annotated";
    "Optional"; "Literal"; "Callable"; "Path"; "bytearray"; "IntEnum";
    "dataclasses"; "overload"; "Contract"; "Library"; "Address";
    "Account"; "Chain"; "RequestType"; "TransactionRevertedError";
    "TransactionAbc"; "LegacyTransaction"; "Eip2930Transaction";
    "Eip1559Transaction"; "ValueRange"; "Length"; "bytes"; "int"; "uint";
    "str"; "bool" ]
  ++ flat_map (fun i => ["uint" +:+ str_of_int i; "int" +:+ str_of_int i])
              (range 8 8 32)
  ++ flat_map (fun i => ["bytes" +:+ str_of_int i; "List" +:+ str_of_int i])
              (range 1 1 32).

Definition contract_reserved : list string :=
  [ "_abi"; "_deployment_code"; "_address"; "_chain"; "_label";
    "_get_deployment_code"; "_deploy"; "_execute"; "_library_id";
    "_prepare_tx_params"; "address"; "label"; "balance"; "code"; "chain";
    "nonce"; "call"; "transact"; "estimate"; "deploy"; "deployment_code" ].

Definition function_reserved : list string :=
  [ "self"; "cls"; "from_"; "value"; "gas_limit"; "return_tx"; "chain";
    "to"; "request_type"; "gas_price"; "max_fee_per_gas";
    "max_priority_fee_per_gas"; "access_list"; "block"; "confirmations" ].

Definition struct_reserved : list string := [ "original_name" ].
Definition event_reserved : list string := [ "_abi"; "selector"; "original_name" ].
Definition error_reserved : list string := [ "_abi"; "selector"; "original_name" ].
Definition enum_reserved : list string := [].

(** *** The sanitizer state *)

Record t : Type := State {
  global_renames : gmap nat string;
  contract_renames : gmap nat (gmap nat string);
  function_renames : gmap nat (gmap nat string);
  struct_renames : gmap nat (gmap nat string);
  event_renames : gmap nat (gmap nat string);
  error_renames : gmap nat (gmap nat string);
  enum_renames : gmap nat (gmap nat string)
}.

(** [NameSanitizer.__init__] *)
Definition init : t := State ∅ ∅ ∅ ∅ ∅ ∅ ∅.

(** [table[owner]] on a [defaultdict(dict)]: the empty dict when the
    owner has no entry yet. *)
Definition table_of (m : gmap nat (gmap nat string)) (owner : nat)
  : gmap nat string :=
  default ∅ (m !! owner).

(** [name.startswith("__") and name.endswith("__") and not
    name.endswith("___")] *)
Definition is_dunder (name : string) : bool :=
  startswith "__" name && endswith "__" name && negb (endswith "___" name).

Definition _check_global (st : t) (name : string) : bool :=
  str_in name global_reserved
  || py_in (PyStr name) (values_of (global_renames st))
  || iskeyword name.

Definition _check_contract (st : t) (name : string) (contract : nat) : bool :=
  str_in name global_reserved
  || py_in (PyStr name) (keys_of (global_renames st))
  || str_in name contract_reserved
  || py_in (PyStr name) (values_of (table_of (contract_renames st) contract))
  || iskeyword name
  || is_dunder name.

Definition _check_function (st : t) (name : string) (function : nat) : bool :=
  str_in name global_reserved
  || py_in (PyStr name) (keys_of (global_renames st))
  || str_in name function_reserved
  || py_in (PyStr name) (values_of (table_of (function_renames st) function))
  || iskeyword name.

Definition _check_struct (st : t) (name : string) (struct : nat) : bool :=
  str_in name global_reserved
  || py_in (PyStr name) (keys_of (global_renames st))
  || str_in name struct_reserved
  || py_in (PyStr name) (values_of (table_of (struct_renames st) struct))
  || iskeyword name
  || is_dunder name.

Definition _check_event (st : t) (name : string) (event : nat) : bool :=
  str_in name global_reserved
  || py_in (PyStr name) (keys_of (global_renames st))
  || str_in name event_reserved
  || py_in (PyStr name) (values_of (table_of (event_renames st) event))
  || iskeyword name
  || is_dunder name.

Definition _check_error (st : t) (name : string) (error : nat) : bool :=
  str_in name global_reserved
  || py_in (PyStr name) (keys_of (global_renames st))
  || str_in name error_reserved
  || py_in (PyStr name) (values_of (table_of (error_renames st) error))
  || iskeyword name
  || is_dunder name.

Definition _check_enum (st : t) (name : string) (enum : nat) : bool :=
  str_in name global_reserved
  || py_in (PyStr name) (keys_of (global_renames st))
  || str_in name enum_reserved
  || py_in (PyStr name) (values_of (table_of (enum_renames st) enum))
  || iskeyword name
  || is_dunder name.

(** [clear_global_renames] *)
Definition clear_global_renames (st : t) : t :=
  State ∅ (contract_renames st) (function_renames st) (struct_renames st)
        (event_renames st) (error_renames st) (enum_renames st).

(** The scope [sanitize_name] selects from the parent of the
    declaration: the [check] closure and the [renames] table. *)
Inductive scope : Type :=
| ScGlobal
| ScContract (c : nat)
| ScStruct (s : nat)
| ScEnum (e : nat)
| ScFunction (f : nat)
| ScEvent (e : nat)
| ScError (e : nat).

Global Instance scope_eq_dec : EqDecision scope.
Proof. solve_decision. Defined.

Definition scope_of (d : declaration) : result scope :=
  match d_parent d with
  | InSourceUnit _ => Ok ScGlobal
  | InContract c => Ok (ScContract (c_id c))
  | InStruct s => Ok (ScStruct s)
  | InEnum e => Ok (ScEnum e)
  | InParameterList (OwnerFunction f) => Ok (ScFunction f)
  | InParameterList (OwnerEvent e) => Ok (ScEvent e)
  | InParameterList (OwnerError e) => Ok (ScError e)
  | InParameterList OwnerOther => Raise NotImplementedError
  | InOther => Raise NotImplementedError
  end.

Definition check (st : t) (sc : scope) (name : string) : bool :=
  match sc with
  | ScGlobal => _check_global st name
  | ScContract c => _check_contract st name c
  | ScStruct s => _check_struct st name s
  | ScEnum e => _check_enum st name e
  | ScFunction f => _check_function st name f
  | ScEvent e => _check_event st name e
  | ScError e => _check_error st name e
  end.

Definition renames (st : t) (sc : scope) : gmap nat string :=
  match sc with
  | ScGlobal => global_renames st
  | ScContract c => table_of (contract_renames st) c
  | ScStruct s => table_of (struct_renames st) s
  | ScEnum e => table_of (enum_renames st) e
  | ScFunction f => table_of (function_renames st) f
  | ScEvent e => table_of (event_renames st) e
  | ScError e => table_of (error_renames st) e
  end.

(** [renames[declaration] = new_name] *)
Definition set_rename (st : t) (sc : scope) (d : nat) (new_name : string) : t :=
  let upd m owner := <[owner := <[d := new_name]> (table_of m owner)]> m in
  match sc with
  | ScGlobal =>
      State (<[d := new_name]> (global_renames st)) (contract_renames st)
            (function_renames st) (struct_renames st) (event_renames st)
            (error_renames st) (enum_renames st)
  | ScContract c =>
      State (global_renames st) (upd (contract_renames st) c)
            (function_renames st) (struct_renames st) (event_renames st)
            (error_renames st) (enum_renames st)
  | ScStruct s =>
      State (global_renames st) (contract_renames st)
            (function_renames st) (upd (struct_renames st) s)
            (event_renames st) (error_renames st) (enum_renames st)
  | ScEnum e =>
      State (global_renames st) (contract_renames st)
            (function_renames st) (struct_renames st) (event_renames st)
            (error_renames st) (upd (enum_renames st) e)
  | ScFunction f =>
      State (global_renames st) (contract_renames st)
            (upd (function_renames st) f) (struct_renames st)
            (event_renames st) (error_renames st) (enum_renames st)
  | ScEvent e =>
      State (global_renames st) (contract_renames st)
            (function_renames st) (struct_renames st)
            (upd (event_renames st) e) (error_renames st) (enum_renames st)
  | ScError e =>
      State (global_renames st) (contract_renames st)
            (function_renames st) (struct_renames st) (event_renames st)
            (upd (error_renames st) e) (enum_renames st)
  end.

(** [while check(new_name): new_name = new_name + "_"] *)
Fixpoint sanitize_loop (fuel : nat) (chk : string -> bool) (new_name : string)
  : option string :=
  match fuel with
  | O => None
  | S fuel' =>
      if chk new_name then sanitize_loop fuel' chk (new_name +:+ "_")
      else Some new_name
  end.

(** Every name a scope can reject, the dunder-style names apart. *)
Definition blocked (st : t) (sc : scope) : list string :=
  let tbl := (fun kv : nat * string => snd kv) <$> map_to_list (renames st sc) in
  global_reserved ++ contract_reserved ++ function_reserved
  ++ struct_reserved ++ event_reserved ++ error_reserved ++ enum_reserved
  ++ kwlist ++ tbl.

(** Iterations granted to the loop: one per rejectable name, one for
    the single dunder-style candidate, one to leave the loop. *)
Definition loop_fuel (st : t) (sc : scope) : nat :=
  S (S (length (blocked st sc))).

Definition sanitize_name (st : t) (d : declaration) : result (string * t) :=
  do sc <- scope_of d;
  match renames st sc !! d_id d with
  | Some name => Ok (name, st)
  | None =>
      match sanitize_loop (loop_fuel st sc) (check st sc) (d_name d) with
      | Some new_name => Ok (new_name, set_rename st sc (d_id d) new_name)
      | None => Raise OutOfFuel
      end
  end.

(** The measure of the loop: the blocked names at least as long as
    the candidate, and one more while an underscore can still make the
    candidate dunder-style, which it cannot once the candidate ends in
    three underscores. *)
Definition count_ge (n : nat) (l : list string) : nat :=
  List.length (List.filter (fun x => (n <=? String.length x)%nat) l).

Definition slack (name : string) : nat :=
  if endswith "___" name then 0%nat else 1%nat.

(** *** Runs of the sanitizer

    During a generation run the sanitizer sees calls of
    [sanitize_name] and, after each compilation unit, one call of
    [clear_global_renames]. *)
Inductive event : Type :=
| Sanitize (d : declaration)
| ClearGlobal.

Definition step (st : t) (ev : event) : result t :=
  match ev with
  | Sanitize d => rmap snd (sanitize_name st d)
  | ClearGlobal => Ok (clear_global_renames st)
  end.

Fixpoint run_events (st : t) (evs : list event) : result t :=
  match evs with
  | [] => Ok st
  | ev :: evs' => do st' <- step st ev; run_events st' evs'
  end.

(** The state a run ends in (the start state if it raises). *)
Definition after (st : t) (evs : list event) : t :=
  match run_events st evs with
  | Ok st' => st'
  | Raise _ => st
  end.


(** The identifier a call returns. *)
Definition name_of (r : result (string * t)) : option string :=
  match r with
  | Ok (n, _) => Some n
  | Raise _ => None
  end.

(** The scopes whose names become attributes of a generated class. *)
Definition class_scope (sc : scope) : bool :=
  match sc with
  | ScGlobal | ScFunction _ => false
  | _ => true
  end.

(** No two declarations of a rename table share an identifier. *)
Definition tables_injective (st : t) : Prop :=
  forall sc i j n,
    renames st sc !! i = Some n -> renames st sc !! j = Some n -> i = j.

(** No identifier of a class scope is dunder-style. *)
Definition tables_dunder_free (st : t) : Prop :=
  forall sc i n,
    class_scope sc = true -> renames st sc !! i = Some n ->
    is_dunder n = false.

End Sanitizer.

(* ===================================================================== *)
(** ** Type mapping, imports and getter synthesis *)
(* ===================================================================== *)

Module TypeMapper.
Import Py Sanitizer.

(** *** Type descriptors ([woke.ast.types]) *)

Inductive ty : Type :=
| TAddress
| TString
| TBool
| TBytes
| TFunction
| TOther (class_name : string)
| TFixedBytes (bytes_count : Z)
| TInt (bits_count : Z)
| TUInt (bits_count : Z)
| TArray (base_type : ty) (length : option Z)
| TMapping (key_type value_type : ty)
| TStruct (ir_node : declaration)
| TEnum (ir_node : declaration)
| TContract (ir_node : contract_definition)
| TUserDefinedValueType (underlying_type : ty).

(** [expr.__class__.__name__] *)
Definition class_name_of (t : ty) : string :=
  match t with
  | TAddress => "Address"
  | TString => "String"
  | TBool => "Bool"
  | TBytes => "Bytes"
  | TFunction => "Function"
  | TOther n => n
  | TFixedBytes _ => "FixedBytes"
  | TInt _ => "Int"
  | TUInt _ => "UInt"
  | TArray _ _ => "Array"
  | TMapping _ _ => "Mapping"
  | TStruct _ => "Struct"
  | TEnum _ => "Enum"
  | TContract _ => "Contract"
  | TUserDefinedValueType _ => "UserDefinedValueType"
  end.

(** [__init_sol_to_py_types]: (parameter form, return form). *)
Definition sol_to_py_lookup : list (string * (string * string)) :=
  [ ("Address", ("Union[Account, Address]", "Address"));
    ("String", ("str", "str"));
    ("Bool", ("bool", "bool"));
    ("Bytes", ("Union[bytearray, bytes]", "bytearray"));
    ("Function", ("Callable", "Callable")) ].

Fixpoint assoc (k : string) (l : list (string * (string * string)))
  : result (string * string) :=
  match l with
  | [] => Raise KeyError
  | (k', v) :: l' => if String.eqb k k' then Ok v else assoc k l'
  end.

(** [self.__sol_to_py_lookup[expr.__class__.__name__][types_index]] *)
Definition lookup_py (t : ty) (types_index : nat) : result string :=
  do v <- assoc (class_name_of t) sol_to_py_lookup;
  Ok (match types_index with O => fst v | _ => snd v end).

(** *** Type names ([woke.ast.ir.type_name]) *)






(** *** The generator state the mapper touches *)

(** [SourceUnitImports] *)
Record imports_t : Type := Imports {
  struct_imports : gset string;
  enum_imports : gset string;
  contract_imports : gset string;
  python_imports : gset string
}.

Record gen : Type := Gen {
  name_sanitizer : Sanitizer.t;
  imports : imports_t;
  current_source_unit : string
}.

Definition gen_init : gen :=
  Gen Sanitizer.init (Imports ∅ ∅ ∅ ∅) "".

(** [TypeGenerator.get_name] *)
Definition get_name (g : gen) (d : declaration) : result (string * gen) :=
  do r <- sanitize_name (name_sanitizer g) d;
  Ok (fst r, Gen (snd r) (imports g) (current_source_unit g)).

(** [_make_path_alphanum] *)
Definition _make_path_alphanum (source_unit_name : string) : string :=
  let filtered :=
    filter_str (fun ch => isalnum ch || Ascii.eqb ch "/" || Ascii.eqb ch "_")
               source_unit_name in
  join "/"
    ((fun segment =>
        match segment with
        | String c _ => if isdigit c then "_" +:+ segment else segment
        | EmptyString => segment
        end) <$> split "/" filtered).

(** [SourceUnitImports.generate_import] *)
Definition generate_import (g : gen) (d : declaration)
           (source_unit_name : string) : result (string * gen) :=
  let source_unit_name := _make_path_alphanum source_unit_name in
  do r <- get_name g d;
  Ok ("from pytypes."
        +:+ replace_char "/" "." (drop_last_str 3 source_unit_name)
        +:+ " import " +:+ fst r,
      snd r).

Definition add_struct_import (g : gen) (i : string) : gen :=
  let im := imports g in
  Gen (name_sanitizer g)
      (Imports ({[i]} ∪ struct_imports im) (enum_imports im)
               (contract_imports im) (python_imports im))
      (current_source_unit g).

Definition add_enum_import (g : gen) (i : string) : gen :=
  let im := imports g in
  Gen (name_sanitizer g)
      (Imports (struct_imports im) ({[i]} ∪ enum_imports im)
               (contract_imports im) (python_imports im))
      (current_source_unit g).

Definition add_contract_import (g : gen) (i : string) : gen :=
  let im := imports g in
  Gen (name_sanitizer g)
      (Imports (struct_imports im) (enum_imports im)
               ({[i]} ∪ contract_imports im) (python_imports im))
      (current_source_unit g).

(** [generate_struct_import] *)
Definition generate_struct_import (g : gen) (node : declaration)
  : result gen :=
  do source_unit <- match d_parent node with
                    | InContract c => Ok (c_source_unit c)
                    | InSourceUnit n => Ok n
                    | _ => Raise AttributeError
                    end;
  if String.eqb source_unit (current_source_unit g) then Ok g
  else do r <- generate_import g node source_unit;
       Ok (add_struct_import (snd r) (fst r)).

(** [generate_enum_import] *)
Definition generate_enum_import (g : gen) (node : declaration)
  : result gen :=
  do source_unit <- match d_parent node with
                    | InSourceUnit n => Ok n
                    | _ => Raise AssertionError
                    end;
  if String.eqb source_unit (current_source_unit g) then Ok g
  else do r <- generate_import g node source_unit;
       Ok (add_enum_import (snd r) (fst r)).

(** [generate_contract_import] *)
Definition generate_contract_import (g : gen) (c : contract_definition)
  : result gen :=
  if String.eqb (c_source_unit c) (current_source_unit g) then Ok g
  else do r <- generate_import g (contract_decl c) (c_source_unit c);
       Ok (add_contract_import (snd r) (fst r)).

(** The name of a struct or enum as the generated code refers to it:
    [Container.Name] with a contract import for a contract member, the
    bare name with [import_direct] otherwise. *)
Definition qualified_name (import_direct : gen -> declaration -> result gen)
           (g : gen) (node : declaration) : result (string * gen) :=
  match d_parent node with
  | InContract parent =>
      do g1 <- generate_contract_import g parent;
      do a <- get_name g1 (contract_decl parent);
      do b <- get_name (snd a) node;
      Ok (fst a +:+ "." +:+ fst b, snd b)
  | _ =>
      do g1 <- import_direct g node;
      get_name g1 node
  end.

(** [parse_type_and_import] *)
Fixpoint parse_type_and_import (g : gen) (expr : ty) (return_types : bool)
  : result (string * gen) :=
  let types_index := if return_types then 1%nat else 0%nat in
  match expr with
  | TStruct node => qualified_name generate_struct_import g node
  | TEnum node => qualified_name generate_enum_import g node
  | TUserDefinedValueType underlying =>
      parse_type_and_import g underlying return_types
  | TArray base_type None =>
      do r <- parse_type_and_import g base_type return_types;
      Ok ("List[" +:+ fst r +:+ "]", snd r)
  | TArray base_type (Some length) =>
      if length <=? 32 then
        do r <- parse_type_and_import g base_type return_types;
        Ok ("List" +:+ str_of_int length +:+ "[" +:+ fst r +:+ "]", snd r)
      else
        do r <- parse_type_and_import g base_type return_types;
        Ok ("Annotated[List[" +:+ fst r +:+ "], Length("
              +:+ str_of_int length +:+ ")]", snd r)
  | TContract node =>
      do g1 <- generate_contract_import g node;
      get_name g1 (contract_decl node)
  | TFixedBytes n => Ok ("bytes" +:+ str_of_int n, g)
  | TInt n => Ok ("int" +:+ str_of_int n, g)
  | TUInt n => Ok ("uint" +:+ str_of_int n, g)
  | TMapping key_type value_type =>
      do k <- parse_type_and_import g key_type return_types;
      do v <- parse_type_and_import (snd k) value_type return_types;
      Ok ("Dict[" +:+ fst k +:+ ", " +:+ fst v +:+ "]", snd v)
  | _ =>
      do s <- lookup_py expr types_index;
      Ok (s, g)
  end.

(** *** Getters of public state variables *)












(** *** What a getter exposes of a struct *)



(** *** Sample structs *)




End TypeMapper.

(* ===================================================================== *)
(** ** Revert index and metadata index of a contract *)
(* ===================================================================== *)

Module Template.
Import Py Opcodes.

(** What the scan reads of an AST node found by the interval lookup. *)
Record ast_node : Type := Node {
  ast_tree_depth : Z;
  (** [isinstance(node, FunctionCall)] *)
  is_function_call : bool;
  (** [isinstance(node.parent, RevertStatement)] *)
  parent_is_revert_statement : bool;
  (** [isinstance(node.function_called, ErrorDefinition)] *)
  function_called_is_error : bool
}.

(** The collaborators of the scan: the reference resolver (a
    [KeyError] is [None]) and the interval trees by path, each
    answering [envelop(start, end)] with the data of its intervals in
    iteration order (no tree for a path is [None]). *)
Record build : Type := Build {
  resolve_source_file_id : Z -> option string;
  interval_trees : string -> option (Z -> Z -> list ast_node)
}.

(** [sorted(nodes, key=lambda n: n.ast_tree_depth)]: stable. *)
Fixpoint insert_by_depth (n : ast_node) (l : list ast_node) : list ast_node :=
  match l with
  | [] => [n]
  | m :: l' =>
      if ast_tree_depth m <=? ast_tree_depth n
      then m :: insert_by_depth n l'
      else n :: l
  end.

Definition sorted_by_depth (l : list ast_node) : list ast_node :=
  fold_left (fun acc n => insert_by_depth n acc) l [].

(** [__contracts_revert_index]: fully-qualified name to program
    counters. *)
Definition add_revert (idx : gmap string (gset Z)) (fqn : string) (pc : Z)
  : gmap string (gset Z) :=
  <[fqn := {[pc]} ∪ default ∅ (idx !! fqn)]> idx.

(** The body of [for pc, op, size, argument in parsed_opcodes]. *)
Definition scan_instruction (b : build) (fqn : string)
           (pc_map : gmap Z pc_entry) (idx : gmap string (gset Z))
           (ins : instruction) : result (gmap string (gset Z)) :=
  if String.eqb (i_op ins) "REVERT" then
    match pc_map !! i_pc ins with
    | Some (start, end_, file_id, _) =>
        if file_id =? -1 then Ok idx
        else
          match resolve_source_file_id b file_id with
          | None => Ok idx
          | Some path =>
              match interval_trees b path with
              | None => Raise KeyError
              | Some envelop =>
                  match sorted_by_depth (envelop start end_) with
                  | node :: _ =>
                      if is_function_call node
                         && parent_is_revert_statement node
                      then
                        do_ assert (function_called_is_error node);
                        Ok (add_revert idx fqn (i_pc ins))
                      else Ok idx
                  | [] => Ok idx
                  end
              end
          end
    | None => Ok idx
    end
  else Ok idx.

Fixpoint scan_reverts (b : build) (fqn : string) (pc_map : gmap Z pc_entry)
         (parsed_opcodes : list instruction) (idx : gmap string (gset Z))
  : result (gmap string (gset Z)) :=
  match parsed_opcodes with
  | [] => Ok idx
  | ins :: rest =>
      do idx' <- scan_instruction b fqn pc_map idx ins;
      scan_reverts b fqn pc_map rest idx'
  end.

(** The metadata block: the trailer of the deployed bytecode keys
    [__contracts_by_metadata_index]. *)
Definition register_metadata (deployed_object : string) (fqn : string)
           (index : gmap (list Z) string) : result (gmap (list Z) string) :=
  if (0 <? String.length deployed_object)%nat then
    do metadata <- fromhex (last_str 106 deployed_object);
    do_ assert (Nat.eqb (List.length metadata) 53);
    do_ assert (negb (bool_decide (is_Some (index !! metadata))));
    Ok (<[metadata := fqn]> index)
  else Ok index.

(** What is read here of a contract and of its compiled artifacts. *)
Record contract_artifacts : Type := Artifacts {
  source_unit_name : string;
  contract_name : string;
  deployed_opcodes : string;
  deployed_source_map : string;
  deployed_object : string;
  (** [contract.linearized_base_contracts]: the unit name and the name
      of every base *)
  linearized_base_contracts : list (string * string)
}.

Record indices : Type := Indices {
  contracts_revert_index : gmap string (gset Z);
  contracts_by_metadata_index : gmap (list Z) string;
  contracts_inheritance_index : gmap string (list string)
}.

(** The inheritance block: a contract is generated once. *)
Definition register_inheritance (c : contract_artifacts) (fqn : string)
           (index : gmap string (list string))
  : result (gmap string (list string)) :=
  do_ assert (negb (bool_decide (is_Some (index !! fqn))));
  Ok (<[fqn := (fun base => fst base +:+ ":" +:+ snd base)
                 <$> linearized_base_contracts c]> index).

(** [generate_contract_template], from the computation of [fqn] to the
    registration of the contract in the inheritance index.  The class
    header written before, and the tables of the ABI, of the deployment
    code and of the libraries built after, do not touch the three
    indices. *)
Definition generate_contract_template (b : build) (c : contract_artifacts)
           (ix : indices) : result indices :=
  let fqn := source_unit_name c +:+ ":" +:+ contract_name c in
  do parsed_opcodes <- _parse_opcodes (deployed_opcodes c);
  do pc_map <- _parse_source_map (deployed_source_map c) parsed_opcodes;
  do revert_index <-
    scan_reverts b fqn pc_map parsed_opcodes (contracts_revert_index ix);
  do metadata_index <-
    register_metadata (deployed_object c) fqn (contracts_by_metadata_index ix);
  do inheritance_index <-
    register_inheritance c fqn (contracts_inheritance_index ix);
  Ok (Indices revert_index metadata_index inheritance_index).

(** *** Sample artifacts *)

(** A build without sources: nothing resolves. *)
Definition no_sources : build := Build (fun _ => None) (fun _ => None).



End Template.

(* ===================================================================== *)
(** ** The unit scheduler of [generate_types] *)
(* ===================================================================== *)

Module Scheduler.
Import Py.

(** *** The import graph ([networkx.DiGraph] over unit names)

    Nodes and edges are kept in insertion order, every end of an edge
    being a node. *)
Record digraph : Type := Graph {
  nodes : list string;
  edges : list (string * string)
}.

(** The edges into and out of one node. *)
Definition pred_edges (g : digraph) (n : string) : list (string * string) :=
  List.filter (fun e => String.eqb (snd e) n) (edges g).

Definition succ_edges (g : digraph) (n : string) : list (string * string) :=
  List.filter (fun e => String.eqb (fst e) n) (edges g).

(** The one-character strings of a string, as [for n in s] yields
    them. *)
Fixpoint chars (s : string) : list string :=
  match s with
  | EmptyString => []
  | String c s' => String c EmptyString :: chars s'
  end.

(** [dict.fromkeys(l)]: first occurrences, in order. *)
Fixpoint fromkeys (l : list string) : list string :=
  match l with
  | [] => []
  | x :: l' => x :: List.filter (fun y => negb (String.eqb x y)) (fromkeys l')
  end.

(** [graph.nbunch_iter(n)] for a string [n]: the node itself when it
    is in the graph; otherwise [n] is iterated as a container of
    nodes, which for a string yields its characters, and those that
    are nodes are kept. *)
Definition nbunch_iter (g : digraph) (n : string) : list string :=
  if str_in n (nodes g) then [n]
  else fromkeys (List.filter (fun c => str_in c (nodes g)) (chars n)).

(** [graph.in_edges(n)] and [graph.out_edges(n)]: the edge views take
    [dict.fromkeys(graph.nbunch_iter(n))] and list the edges of each
    of these nodes. *)
Definition in_edges (g : digraph) (n : string) : list (string * string) :=
  flat_map (pred_edges g) (nbunch_iter g n).

Definition out_edges (g : digraph) (n : string) : list (string * string) :=
  flat_map (succ_edges g) (nbunch_iter g n).

(** [graph.in_degree(n)] for a node of the graph, and the degree
    [graph.in_degree()] pairs with [n]. *)
Definition in_degree (g : digraph) (n : string) : nat :=
  List.length (pred_edges g n).

(** [graph.remove_nodes_from(ns)] *)
Definition remove_nodes_from (g : digraph) (ns : list string) : digraph :=
  Graph (List.filter (fun n => negb (str_in n ns)) (nodes g))
        (List.filter (fun e => negb (str_in (fst e) ns)
                               && negb (str_in (snd e) ns)) (edges g)).

(** *** Sets of names

    A [set] or [frozenset] of [str] is kept as the sorted list of its
    members, so that equal sets are equal lists.  The order in which
    Python iterates such a set follows the hashes of the strings, which
    differ from run to run; it is a parameter of the run, like the
    result of [sorted] on a set of frozensets, which Python orders by
    inclusion. *)
Fixpoint set_add (x : string) (l : list string) : list string :=
  match l with
  | [] => [x]
  | y :: l' =>
      if String.eqb x y then l
      else if String.ltb x y then x :: l
      else y :: set_add x l'
  end.

Definition frozenset (l : list string) : list string :=
  fold_right set_add [] l.

Record runtime : Type := Runtime {
  (** the order in which [for x in s] visits the set [s] *)
  iter_set : list string -> list string;
  (** [sorted(s)] for a set [s] of frozensets *)
  sorted_sets : list (list string) -> list (list string)
}.

(** *** [heapq] on a list of names: the heap is kept sorted, so the
    smallest name is at the head. *)
Fixpoint heappush (h : list string) (x : string) : list string :=
  match h with
  | [] => [x]
  | y :: h' => if String.leb x y then x :: h else y :: heappush h' x
  end.

Definition heapify (l : list string) : list string :=
  fold_left heappush l [].

(** *** The build *)
Record build_info : Type := BuildInfo {
  (** [build_info.source_units_info]: unit name to [fs_path] *)
  source_units_info : list (string * string);
  (** [self.__source_units]: path to the [source_unit_name] of the
      unit parsed there *)
  source_units : list (string * string)
}.

Fixpoint lookup (k : string) (l : list (string * string)) : option string :=
  match l with
  | [] => None
  | (k', v) :: l' => if String.eqb k k' then Some v else lookup k l'
  end.

(** [build_info.source_units_info[source].fs_path] *)
Definition fs_path (bi : build_info) (source : string) : result string :=
  match lookup source (source_units_info bi) with
  | Some p => Ok p
  | None => Raise KeyError
  end.

(** [paths_to_source_unit_names[path]] *)
Definition paths_to_source_unit_names (bi : build_info) (path : string)
  : list string :=
  frozenset (fst <$> List.filter (fun kv => String.eqb (snd kv) path)
                                 (source_units_info bi)).

(** [generate_source_unit] as the scheduler sees it: the unit is
    generated, which the log records by its name. *)
Definition generate_if_known (bi : build_info) (path : string)
           (log : list string) : list string :=
  match lookup path (source_units bi) with
  | Some unit_name => (log ++ [unit_name])%list
  | None => log
  end.

(** *** The frontier: [while len(sources) > 0]

    The set [visited] of the source is written and never read; the
    model leaves it out. *)
Fixpoint drain_sources (fuel : nat) (rt : runtime) (bi : build_info)
         (sources : list string) (graph : digraph) (log : list string)
  : result (digraph * list string) :=
  match fuel with
  | O => Raise OutOfFuel
  | S fuel' =>
      match sources with
      | [] => Ok (graph, log)
      | source :: rest =>
          do path <- fs_path bi source;
          let log' := generate_if_known bi path log in
          let names := iter_set rt (paths_to_source_unit_names bi path) in
          let sources' :=
            fold_left
              (fun h source_unit_name =>
                 fold_left
                   (fun h e =>
                      if Nat.eqb (in_degree graph (snd e)) 1
                      then heappush h (snd e) else h)
                   (out_edges graph source_unit_name) h)
              names rest in
          drain_sources fuel' rt bi sources'
                        (remove_nodes_from graph names) log'
      end
  end.

(** *** [networkx.simple_cycles]: every elementary circuit once, found
    from its first node in node order through later nodes only. *)
Fixpoint circuits_from (fuel : nat) (g : digraph) (allowed : list string)
         (start : string) (path : list string) (cur : string)
  : list (list string) :=
  match fuel with
  | O => []
  | S fuel' =>
      flat_map
        (fun e =>
           let v := snd e in
           if String.eqb v start then [rev path]
           else if str_in v allowed && negb (str_in v path)
           then circuits_from fuel' g allowed start (v :: path) v
           else [])
        (succ_edges g cur)
  end.

Fixpoint simple_cycles_from (g : digraph) (ns : list string)
  : list (list string) :=
  match ns with
  | [] => []
  | s :: later =>
      (circuits_from (S (List.length later)) g later s [s] s
         ++ simple_cycles_from g later)%list
  end.

Definition simple_cycles (g : digraph) : list (list string) :=
  simple_cycles_from g (nodes g).

Definition same_set (a b : list string) : bool :=
  bool_decide (a = b).

Definition set_in (a : list string) (s : list (list string)) : bool :=
  existsb (same_set a) s.

Definition sets_add (a : list string) (s : list (list string))
  : list (list string) :=
  if set_in a s then s else (s ++ [a])%list.

(** The [is_closed_cycle] test: no member has an incoming edge from
    outside the cycle. *)
Definition is_closed_cycle (g : digraph) (cycle : list string) : bool :=
  forallb
    (fun node =>
       negb (existsb (fun e => negb (str_in (fst e) cycle)) (in_edges g node)))
    cycle.

(** [for cycle in nx.simple_cycles(graph)]: the sets [cycles] and
    [generated_cycles] after the loop. *)
Definition classify_cycles (g : digraph) (cycles : list (list string))
  : list (list string) * list (list string) :=
  fold_left
    (fun acc cycle =>
       let '(cycles, generated_cycles) := acc in
       let cycles := sets_add (frozenset cycle) cycles in
       if set_in (frozenset cycle) generated_cycles
       then (cycles, generated_cycles)
       else if is_closed_cycle g cycle
       then (cycles, sets_add (frozenset cycle) generated_cycles)
       else (cycles, generated_cycles))
    (simple_cycles g) (cycles, []).

(** [for source in cycle] of the flush of one closed cycle. *)
Fixpoint flush_members (bi : build_info) (members : list string)
         (graph : digraph) (log : list string)
  : result (digraph * list string) :=
  match members with
  | [] => Ok (graph, log)
  | source :: rest =>
      do path <- fs_path bi source;
      flush_members bi rest
        (remove_nodes_from graph (paths_to_source_unit_names bi path))
        (generate_if_known bi path log)
  end.

(** [for cycle in sorted(generated_cycles)] *)
Fixpoint flush_cycles (rt : runtime) (bi : build_info)
         (groups : list (list string)) (graph : digraph) (log : list string)
  : result (digraph * list string) :=
  match groups with
  | [] => Ok (graph, log)
  | cycle :: rest =>
      do r <- flush_members bi (iter_set rt cycle) graph log;
      flush_cycles rt bi rest (fst r) (snd r)
  end.

Record run : Type := Run {
  (** the units generated, in order *)
  generated : list string;
  (** the sets listed by the warning, [None] when none is logged *)
  warning : option (list (list string))
}.

(** [while len(graph) > 0]; [cycles_detected] holds exactly when
    [cycles] is not empty. *)
Fixpoint schedule_loop (fuel : nat) (rt : runtime) (bi : build_info)
         (graph : digraph) (previous_len : nat)
         (cycles : list (list string)) (log : list string)
  : result (list (list string) * list string) :=
  match fuel with
  | O => Raise OutOfFuel
  | S fuel' =>
      if (0 <? List.length (nodes graph))%nat then
        let sources :=
          heapify (List.filter (fun n => Nat.eqb (in_degree graph n) 0)
                               (nodes graph)) in
        do r <- drain_sources (S (List.length (nodes graph))) rt bi sources
                              graph log;
        let '(cycles', generated_cycles) := classify_cycles (fst r) cycles in
        do r' <- flush_cycles rt bi (sorted_sets rt generated_cycles)
                              (fst r) (snd r);
        let graph' := fst r' in
        if Nat.eqb (List.length (nodes graph')) previous_len
        then Ok (cycles', snd r')
        else schedule_loop fuel' rt bi graph' (List.length (nodes graph'))
                           cycles' (snd r')
      else Ok (cycles, log)
  end.

(** The scheduling part of [generate_types]. *)
Definition generate_types (rt : runtime) (bi : build_info) (graph : digraph)
  : result run :=
  do r <- schedule_loop (S (List.length (nodes graph))) rt bi graph
                        (List.length (nodes graph)) [] [];
  Ok (Run (snd r)
          (match fst r with
           | [] => None
           | cycles => Some cycles
           end)).

(** *** The three-unit cycle A -> B -> C -> A *)

Definition cycle_graph : digraph :=
  Graph ["A"; "B"; "C"] [("A", "B"); ("B", "C"); ("C", "A")].

(** Every unit has its own file and was parsed. *)
Definition cycle_build : build_info :=
  BuildInfo [("A", "/src/A"); ("B", "/src/B"); ("C", "/src/C")]
            [("/src/A", "A"); ("/src/B", "B"); ("/src/C", "C")].

(** A run in which the hashes of the three names make Python visit
    the set in the order B, A, C. *)
Definition runtime_bac : runtime :=
  Runtime (fun s => if bool_decide (s = ["A"; "B"; "C"])
                    then ["B"; "A"; "C"] else s)
          (fun groups => groups).

End Scheduler.

(* ===================================================================== *)
(** ** Properties of the decoder *)
(* ===================================================================== *)

Section OpcodeProperties.
Import Py Opcodes.

Lemma end_pc_app pc l ins :
  end_pc pc (l ++ [ins]) = end_pc pc l + i_size ins.
Proof. unfold end_pc. now rewrite fold_left_app. Qed.

Lemma accumulates_app pc l ins :
  accumulates pc l -> i_pc ins = end_pc pc l -> sized ins ->
  accumulates pc (l ++ [ins]).
Proof.
  revert pc. induction l as [|a l IH]; intros pc Hl Hpc Hs; simpl in *.
  - auto.
  - destruct Hl as (Ha & Hsa & Hl). repeat split; auto.
Qed.

Lemma count_push_app l ins :
  count_push (l ++ [ins]) = (count_push l + (if is_push ins then 1 else 0))%nat.
Proof.
  unfold count_push. rewrite List.filter_app, List.length_app. simpl.
  destruct (is_push ins); reflexivity.
Qed.

(** The loop keeps the table well formed, and every token is either
    an instruction or the operand of a push. *)
Lemma parse_opcodes_loop_spec toks :
  forall pc ignore acc l,
    accumulates 0 acc -> end_pc 0 acc = pc ->
    (ignore = true -> toks <> []) ->
    parse_opcodes_loop toks pc ignore acc = Ok l ->
    accumulates 0 l /\
    (List.length toks + List.length acc + count_push acc
     = List.length l + count_push l + (if ignore then 1 else 0))%nat.
Proof.
  induction toks as [|opcode rest IH]; intros pc ignore acc l Hacc Hpc Hign Hrun.
  - simpl in Hrun. injection Hrun as <-.
    destruct ignore; [exfalso; now apply Hign|]. split; [assumption|simpl; lia].
  - cbn [parse_opcodes_loop] in Hrun. destruct ignore.
    + apply IH in Hrun; [|assumption|assumption|discriminate].
      destruct Hrun as [H1 H2]. split; [assumption|]. simpl. lia.
    + destruct (startswith "PUSH" opcode) eqn:Hpush; cbn [negb] in Hrun.
      * destruct (int 10 (drop_str 4 opcode)) as [n|] eqn:Hn;
          cbn [bind] in Hrun; [|discriminate Hrun].
        destruct rest as [|tok rest']; cbn [bind] in Hrun;
          [discriminate Hrun|].
        destruct (int 16 tok) as [arg|] eqn:Harg;
          cbn [bind] in Hrun; [|discriminate Hrun].
        apply IH in Hrun.
        -- destruct Hrun as [H1 H2]. split; [assumption|].
           rewrite List.length_app, count_push_app in H2.
           unfold is_push in H2. cbn [i_op] in H2. rewrite Hpush in H2.
           simpl in *. lia.
        -- apply accumulates_app; [assumption|simpl; congruence|].
           unfold sized, is_push. cbn [i_op i_size i_arg]. rewrite Hpush.
           split; [exists n; split; [exact Hn|reflexivity]|eexists; reflexivity].
        -- rewrite end_pc_app. simpl. congruence.
        -- discriminate.
      * apply IH in Hrun.
        -- destruct Hrun as [H1 H2]. split; [assumption|].
           rewrite List.length_app, count_push_app in H2.
           unfold is_push in H2. cbn [i_op] in H2. rewrite Hpush in H2.
           simpl in *. lia.
        -- apply accumulates_app; [assumption|simpl; congruence|].
           unfold sized, is_push. cbn [i_op i_size i_arg]. rewrite Hpush.
           split; reflexivity.
        -- rewrite end_pc_app. simpl. congruence.
        -- discriminate.
Qed.

(** C2. The disassembly "PUSH1 0x05 ADD STOP" decodes to three
    instructions at program counters 0, 2 and 3 (the operand 0x05 is
    no instruction).  In every table the decoder returns, counters
    accumulate from 0, a push of declared size n occupies n+1 bytes,
    every other opcode occupies one byte, and the tokens are the
    instructions together with one skipped operand per push. *)
Theorem parse_opcodes_program_counters :
  _parse_opcodes "PUSH1 0x05 ADD STOP"
  = Ok [Instr 0 "PUSH1" 2 (Some 5); Instr 2 "ADD" 1 None;
        Instr 3 "STOP" 1 None]
  /\ forall opcodes l,
      _parse_opcodes opcodes = Ok l ->
      accumulates 0 l /\
      List.length (split " " opcodes) = (List.length l + count_push l)%nat.
Proof.
  split; [reflexivity|].
  intros opcodes l Hrun. unfold _parse_opcodes in Hrun.
  pose proof (parse_opcodes_loop_spec _ 0 false [] l I eq_refl
                ltac:(discriminate) Hrun) as [H1 H2].
  split; [assumption|].
  change (count_push []) with 0%nat in H2. simpl in H2. lia.
Qed.

Lemma parse_opcodes_program_counters_witness :
  i_pc <$> [Instr 0 "PUSH1" 2 (Some 5); Instr 2 "ADD" 1 None;
            Instr 3 "STOP" 1 None] = [0; 2; 3]
  /\ accumulates 0 [Instr 0 "PUSH1" 2 (Some 5); Instr 2 "ADD" 1 None;
                    Instr 3 "STOP" 1 None]
  /\ List.length (split " " "PUSH1 0x05 ADD STOP") = (3 + 1)%nat.
Proof.
  split; [reflexivity|].
  exact (proj2 parse_opcodes_program_counters "PUSH1 0x05 ADD STOP" _
               (proj1 parse_opcodes_program_counters)).
Defined.

End OpcodeProperties.

(* ===================================================================== *)
(** ** Properties of the type mapper: arrays *)
(* ===================================================================== *)

Section ArrayMapping.
Import Py Sanitizer TypeMapper.

(** C6. Once the element type maps to the text [t], an unbounded
    array maps to [List[t]], a bounded array of length at most 32 to
    [List<n>[t]], and a longer one to [Annotated[List[t], Length(<n>)]]
    with the declared length; array(bool, 5), array(uint256, 40) and
    array(uint256, None) map as the examples say. *)
Theorem parse_array_type (g g' : gen) (base : ty) (return_types : bool)
        (t : string) :
  parse_type_and_import g base return_types = Ok (t, g') ->
  parse_type_and_import g (TArray base None) return_types
    = Ok ("List[" +:+ t +:+ "]", g')
  /\ (forall n, n <= 32 ->
        parse_type_and_import g (TArray base (Some n)) return_types
        = Ok ("List" +:+ str_of_int n +:+ "[" +:+ t +:+ "]", g'))
  /\ (forall n, 32 < n ->
        parse_type_and_import g (TArray base (Some n)) return_types
        = Ok ("Annotated[List[" +:+ t +:+ "], Length(" +:+ str_of_int n
                +:+ ")]", g'))
  /\ rmap fst (parse_type_and_import gen_init (TArray TBool (Some 5)) true)
     = Ok "List5[bool]"
  /\ rmap fst (parse_type_and_import gen_init (TArray (TUInt 256) (Some 40)) true)
     = Ok "Annotated[List[uint256], Length(40)]"
  /\ rmap fst (parse_type_and_import gen_init (TArray (TUInt 256) None) true)
     = Ok "List[uint256]".
Proof.
  intros Hbase. split; [|split; [|split]].
  - cbn [parse_type_and_import]. rewrite Hbase. reflexivity.
  - intros n Hn. cbn [parse_type_and_import].
    destruct (Z.leb_spec n 32); [|lia]. rewrite Hbase. reflexivity.
  - intros n Hn. cbn [parse_type_and_import].
    destruct (Z.leb_spec n 32); [lia|]. rewrite Hbase. reflexivity.
  - repeat split; vm_compute; reflexivity.
Qed.

Lemma parse_array_type_witness :
  parse_type_and_import gen_init (TArray (TUInt 256) (Some 32)) false
    = Ok ("List32[uint256]", gen_init)
  /\ parse_type_and_import gen_init (TArray (TUInt 256) (Some 33)) false
    = Ok ("Annotated[List[uint256], Length(33)]", gen_init).
Proof.
  pose proof (parse_array_type gen_init gen_init (TUInt 256) false "uint256"
                eq_refl) as (_ & H32 & H33 & _).
  split; [exact (H32 32 ltac:(lia))|exact (H33 33 ltac:(lia))].
Defined.

End ArrayMapping.

(* ===================================================================== *)
(** ** Properties of the contract template: reverts and metadata *)
(* ===================================================================== *)

Section TemplateProperties.
Import Py Opcodes Template.

(** C9. A REVERT whose source-map entry has file-id -1 is passed
    over: the scan of that instruction raises nothing and leaves the
    revert index as it was, so the scan of the whole table gives what
    it gives on the table without that instruction. *)
Theorem revert_without_source_is_skipped
        (b : build) (fqn : string) (pc_map : gmap Z pc_entry)
        (ins : instruction) (start end_ : Z) (jump : option string) :
  i_op ins = "REVERT" ->
  pc_map !! i_pc ins = Some (start, end_, -1, jump) ->
  (forall idx, scan_instruction b fqn pc_map idx ins = Ok idx)
  /\ (forall before after idx,
        scan_reverts b fqn pc_map (before ++ ins :: after) idx
        = scan_reverts b fqn pc_map (before ++ after) idx).
Proof.
  intros Hop Hmap.
  assert (Hstep : forall idx, scan_instruction b fqn pc_map idx ins = Ok idx).
  { intros idx. unfold scan_instruction. rewrite Hop, Hmap. reflexivity. }
  split; [exact Hstep|].
  induction before as [|x before IH]; intros after idx.
  - cbn [app scan_reverts]. rewrite Hstep. reflexivity.
  - cbn [app scan_reverts].
    destruct (scan_instruction b fqn pc_map idx x); cbn [bind];
      [apply IH|reflexivity].
Qed.






Lemma revert_without_source_is_skipped_witness :
  scan_instruction no_sources "a.sol:C" {[ 3 := (0, 5, -1, Some "-") ]} ∅
                   (Instr 3 "REVERT" 1 None) = Ok ∅
  /\ generate_contract_template no_sources
       (Artifacts "a.sol" "C" "PUSH1 0x00 DUP1 REVERT" "0:5:-1:-:-;;" ""
                  [("a.sol", "C")])
       (Indices ∅ ∅ ∅) = Ok (Indices ∅ ∅ {[ "a.sol:C" := ["a.sol:C"] ]}).
Proof.
  split; [|vm_compute; reflexivity].
  exact (proj1 (revert_without_source_is_skipped
                  no_sources "a.sol:C" {[ 3 := (0, 5, -1, Some "-") ]}
                  (Instr 3 "REVERT" 1 None) 0 5 (Some "-")
                  eq_refl eq_refl) ∅).
Defined.


End TemplateProperties.

(* ===================================================================== *)
(** ** Properties of the sanitizer *)
(* ===================================================================== *)

Section StringFacts.
Import Py.

Lemma str_app_cons (x : ascii) (a b : string) :
  String x a +:+ b = String x (a +:+ b).
Proof. reflexivity. Qed.

Lemma str_app_assoc (a b c : string) : (a +:+ b) +:+ c = a +:+ (b +:+ c).
Proof.
  induction a as [|x a IH]; [reflexivity|].
  now rewrite !str_app_cons, IH.
Qed.

Lemma str_length_app (a b : string) :
  String.length (a +:+ b) = (String.length a + String.length b)%nat.
Proof.
  induction a as [|x a IH]; [reflexivity|].
  rewrite str_app_cons. cbn [String.length]. now rewrite IH.
Qed.

Lemma endswith_iff (p s : string) :
  endswith p s = true <-> exists pre, s = pre +:+ p.
Proof.
  split.
  - induction s as [|c s IH]; cbn [endswith]; intros H.
    + apply orb_true_iff in H as [H|H]; [|discriminate H].
      apply String.eqb_eq in H. exists "". now subst.
    + apply orb_true_iff in H as [H|H].
      * apply String.eqb_eq in H. exists "". now subst.
      * destruct (IH H) as [pre ->]. now exists (String c pre).
  - intros [pre ->]. induction pre as [|c pre IH].
    + change ("" +:+ p) with p. destruct p; cbn [endswith];
        now rewrite String.eqb_refl.
    + change (String c pre +:+ p) with (String c (pre +:+ p)).
      cbn [endswith]. rewrite IH. apply orb_true_r.
Qed.

Lemma endswith_3_after_2 (s : string) :
  endswith "__" s = true -> endswith "___" (s +:+ "_") = true.
Proof.
  intros [pre ->]%endswith_iff. apply endswith_iff. exists pre.
  now rewrite str_app_assoc.
Qed.

Lemma endswith_3_stable (s : string) :
  endswith "___" s = true -> endswith "___" (s +:+ "_") = true.
Proof.
  intros [pre ->]%endswith_iff. apply endswith_iff. exists (pre +:+ "_").
  now rewrite !str_app_assoc.
Qed.

Lemma str_in_In (x : string) (l : list string) :
  str_in x l = true <-> In x l.
Proof.
  unfold str_in. rewrite existsb_exists. split.
  - intros (y & Hy & He). apply String.eqb_eq in He. now subst.
  - intros H. exists x. split; [assumption|apply String.eqb_refl].
Qed.

End StringFacts.

Section SanitizerProperties.
Import Py Sanitizer.

(** *** The membership tests *)

(** A name is never found among the keys of a rename table: the keys
    are declarations. *)
Lemma py_in_keys_false (name : string) (m : gmap nat string) :
  py_in (PyStr name) (keys_of m) = false.
Proof.
  unfold keys_of, py_in. induction (map_to_list m) as [|kv l IH];
    [reflexivity|]. cbn. exact IH.
Qed.

Lemma py_in_values (name : string) (m : gmap nat string) :
  py_in (PyStr name) (values_of m) = true <-> exists k, m !! k = Some name.
Proof.
  unfold values_of, py_in. rewrite existsb_exists. split.
  - intros (x & Hx & He). apply list_elem_of_In, list_elem_of_fmap in Hx.
    destruct Hx as ([k v] & -> & Hkv). cbn in He.
    apply String.eqb_eq in He. subst v. exists k.
    now apply elem_of_map_to_list in Hkv.
  - intros [k Hk]. exists (PyStr name). split.
    + apply list_elem_of_In, list_elem_of_fmap. exists (k, name).
      split; [reflexivity|]. now apply elem_of_map_to_list.
    + cbn. apply String.eqb_refl.
Qed.

Lemma py_in_values_false (name : string) (m : gmap nat string) :
  py_in (PyStr name) (values_of m) = false ->
  forall k, m !! k <> Some name.
Proof.
  intros H k Hk.
  assert (py_in (PyStr name) (values_of m) = true) as Ht
      by (apply py_in_values; eauto).
  congruence.
Qed.

(** Every scope tests the candidate against the values of its own
    table. *)
Lemma check_covers_table (st : t) (sc : scope) (name : string) :
  check st sc name = false ->
  py_in (PyStr name) (values_of (renames st sc)) = false.
Proof.
  destruct sc; cbn [check renames];
    unfold _check_global, _check_contract, _check_struct, _check_enum,
           _check_function, _check_event, _check_error;
    intros H; split_orb_false H; assumption.
Qed.

(** The class scopes reject dunder-style names. *)
Lemma check_covers_dunder (st : t) (sc : scope) (name : string) :
  class_scope sc = true ->
  check st sc name = false -> is_dunder name = false.
Proof.
  destruct sc; cbn [check class_scope]; try discriminate;
    unfold _check_contract, _check_struct, _check_enum,
           _check_event, _check_error;
    intros _ H; split_orb_false H; assumption.
Qed.

(** What a scope rejects is a blocked name or a dunder-style name. *)
Lemma check_blocked (st : t) (sc : scope) (name : string) :
  check st sc name = true ->
  In name (blocked st sc) \/ is_dunder name = true.
Proof.
  assert (Htbl : py_in (PyStr name) (values_of (renames st sc)) = true ->
                 In name (blocked st sc)).
  { intros [k Hk]%py_in_values. unfold blocked.
    rewrite !in_app_iff. do 8 right.
    apply list_elem_of_In, list_elem_of_fmap. exists (k, name).
    split; [reflexivity|]. now apply elem_of_map_to_list. }
  assert (Hres : forall l, incl l (blocked st sc) -> str_in name l = true ->
                           In name (blocked st sc)).
  { intros l Hincl Hl. apply Hincl. now apply str_in_In. }
  assert (Hkw : iskeyword name = true -> In name (blocked st sc)).
  { apply Hres. unfold blocked. intros x Hx. rewrite !in_app_iff. tauto. }
  destruct sc; cbn [check renames] in *;
    unfold _check_global, _check_contract, _check_struct, _check_enum,
           _check_function, _check_event, _check_error;
    rewrite ?py_in_keys_false, ?orb_false_r; intros H;
    split_orb_true H; auto;
    left; revert H; apply Hres; unfold blocked; intros x Hx;
    rewrite !in_app_iff; tauto.
Qed.

(** *** The loop leaves *)

Lemma count_ge_le (n : nat) (l : list string) :
  (count_ge (S n) l <= count_ge n l)%nat.
Proof.
  unfold count_ge. induction l as [|x l IH]; [reflexivity|].
  cbn [List.filter].
  destruct (Nat.leb_spec (S n) (String.length x)),
           (Nat.leb_spec n (String.length x)); cbn [List.length]; lia.
Qed.

Lemma count_ge_lt (x : string) (l : list string) :
  In x l ->
  (count_ge (S (String.length x)) l < count_ge (String.length x) l)%nat.
Proof.
  unfold count_ge. induction l as [|y l IH]; [contradiction|].
  cbn [List.filter]. intros [->|Hin].
  - pose proof (count_ge_le (String.length x) l) as Hle.
    unfold count_ge in Hle.
    destruct (Nat.leb_spec (S (String.length x)) (String.length x)); [lia|].
    destruct (Nat.leb_spec (String.length x) (String.length x)); [|lia].
    cbn [List.length]. lia.
  - specialize (IH Hin).
    destruct (Nat.leb_spec (S (String.length x)) (String.length y)),
             (Nat.leb_spec (String.length x) (String.length y));
      cbn [List.length]; lia.
Qed.

Lemma count_ge_bound (n : nat) (l : list string) :
  (count_ge n l <= List.length l)%nat.
Proof. unfold count_ge. apply List.filter_length_le. Qed.

Lemma sanitize_loop_leaves (chk : string -> bool) (l : list string) :
  (forall x, chk x = true -> In x l \/ is_dunder x = true) ->
  forall fuel name,
    (count_ge (String.length name) l + slack name < fuel)%nat ->
    exists n, sanitize_loop fuel chk name = Some n.
Proof.
  intros Hchk. induction fuel as [|fuel IH]; intros name Hfuel; [lia|].
  cbn [sanitize_loop]. destruct (chk name) eqn:Hc; [|eauto].
  apply IH. rewrite str_length_app. cbn [String.length].
  replace (String.length name + 1)%nat with (S (String.length name)) by lia.
  destruct (Hchk _ Hc) as [Hin|Hd].
  - pose proof (count_ge_lt name l Hin).
    assert (slack (name +:+ "_") <= slack name)%nat; [|lia].
    unfold slack. destruct (endswith "___" name) eqn:He.
    + now rewrite endswith_3_stable.
    + destruct (endswith "___" (name +:+ "_")); lia.
  - pose proof (count_ge_le (String.length name) l).
    unfold is_dunder in Hd.
    apply andb_true_iff in Hd as [Hd H3]. apply andb_true_iff in Hd as [_ H2].
    apply negb_true_iff in H3.
    unfold slack in *. rewrite H3 in Hfuel.
    rewrite (endswith_3_after_2 _ H2). lia.
Qed.

Lemma sanitize_loop_exit (chk : string -> bool) :
  forall fuel name n,
    sanitize_loop fuel chk name = Some n -> chk n = false.
Proof.
  induction fuel as [|fuel IH]; intros name n H; [discriminate H|].
  cbn [sanitize_loop] in H. destruct (chk name) eqn:Hc.
  - eapply IH; eassumption.
  - now injection H as <-.
Qed.

(** [sanitize_name] returns for every declaration with a known
    scope: its loop never uses up the iterations granted. *)
Lemma sanitize_name_returns (st : t) (d : declaration) (sc : scope) :
  scope_of d = Ok sc ->
  exists n st', sanitize_name st d = Ok (n, st').
Proof.
  intros Hsc. unfold sanitize_name. rewrite Hsc. cbn [bind].
  destruct (renames st sc !! d_id d) as [n|]; [eauto|].
  destruct (sanitize_loop_leaves (check st sc) (blocked st sc)
              (check_blocked st sc) (loop_fuel st sc) (d_name d)) as [n Hn].
  - unfold loop_fuel.
    pose proof (count_ge_bound (String.length (d_name d)) (blocked st sc)).
    unfold slack. destruct (endswith _ _); lia.
  - rewrite Hn. eauto.
Qed.

(** *** The rename tables along a run *)

Lemma renames_init (sc : scope) : renames init sc = ∅.
Proof. destruct sc; reflexivity. Qed.

Lemma renames_set_rename (st : t) (sc sc' : scope) (d : nat) (n : string) :
  renames (set_rename st sc d n) sc'
  = if decide (sc = sc') then <[d := n]> (renames st sc) else renames st sc'.
Proof.
  destruct sc, sc'; cbn [set_rename renames global_renames contract_renames
                         function_renames struct_renames event_renames
                         error_renames enum_renames];
    case_decide as Heq; try discriminate Heq; try reflexivity;
    unfold table_of;
    try (injection Heq as ->; now rewrite lookup_insert_eq);
    try (rewrite lookup_insert_ne by congruence; reflexivity);
    congruence.
Qed.

Lemma renames_clear (st : t) (sc : scope) :
  renames (clear_global_renames st) sc
  = if decide (sc = ScGlobal) then ∅ else renames st sc.
Proof. destruct sc; reflexivity. Qed.

(** The two ways [sanitize_name] returns: the cached identifier, or a
    fresh one its scope accepts. *)
Lemma sanitize_name_cases (st st' : t) (d : declaration) (n : string) :
  sanitize_name st d = Ok (n, st') ->
  exists sc,
    scope_of d = Ok sc
    /\ ((renames st sc !! d_id d = Some n /\ st' = st)
        \/ (renames st sc !! d_id d = None /\ check st sc n = false
            /\ st' = set_rename st sc (d_id d) n)).
Proof.
  unfold sanitize_name. intros H.
  destruct (scope_of d) as [sc|]; cbn [bind] in H; [|discriminate H].
  exists sc. split; [reflexivity|].
  destruct (renames st sc !! d_id d) as [m|] eqn:Hm.
  - injection H as <- <-. now left.
  - destruct (sanitize_loop _ _ _) as [m|] eqn:Hloop; [|discriminate H].
    injection H as <- <-. right. repeat split.
    eapply sanitize_loop_exit; eassumption.
Qed.


(** A call leaves the identifier it returns in the table of its scope. *)
Lemma sanitize_name_records (st st' : t) (d : declaration) (n : string) :
  sanitize_name st d = Ok (n, st') ->
  exists sc, scope_of d = Ok sc /\ renames st' sc !! d_id d = Some n.
Proof.
  intros (sc & Hsc & [[Hc ->]|(Hnone & Hchk & ->)])%sanitize_name_cases;
    exists sc; (split; [exact Hsc|]); [exact Hc|].
  rewrite renames_set_rename. rewrite decide_True by reflexivity.
  apply lookup_insert_eq.
Qed.



Lemma init_injective : tables_injective init.
Proof. intros sc i j n H. rewrite renames_init in H. discriminate H. Qed.

Lemma init_dunder_free : tables_dunder_free init.
Proof. intros sc i n _ H. rewrite renames_init in H. discriminate H. Qed.

Lemma step_injective (st st' : t) (ev : event) :
  step st ev = Ok st' -> tables_injective st -> tables_injective st'.
Proof.
  intros Hstep Hinv. destruct ev as [d|]; cbn [step] in Hstep.
  - destruct (sanitize_name st d) as [[m st1]|] eqn:Hs;
      cbn [rmap snd] in Hstep; [|discriminate Hstep].
    injection Hstep as <-.
    apply sanitize_name_cases in Hs
      as (sc' & _ & [[_ ->]|(Hnone & Hchk & ->)]); [exact Hinv|].
    pose proof (py_in_values_false _ _ (check_covers_table _ _ _ Hchk))
      as Hfresh.
    intros sc i j n. rewrite renames_set_rename.
    case_decide as Heq; [subst sc'|apply Hinv].
    rewrite !lookup_insert. repeat case_decide; intros Hi Hj.
    + congruence.
    + injection Hi as <-. now apply Hfresh in Hj.
    + injection Hj as <-. now apply Hfresh in Hi.
    + eapply Hinv; eassumption.
  - injection Hstep as <-. intros sc i j n. rewrite renames_clear.
    case_decide as Hg; [intros Hx; discriminate Hx|apply Hinv].
Qed.

Lemma step_dunder_free (st st' : t) (ev : event) :
  step st ev = Ok st' -> tables_dunder_free st -> tables_dunder_free st'.
Proof.
  intros Hstep Hinv. destruct ev as [d|]; cbn [step] in Hstep.
  - destruct (sanitize_name st d) as [[m st1]|] eqn:Hs;
      cbn [rmap snd] in Hstep; [|discriminate Hstep].
    injection Hstep as <-.
    apply sanitize_name_cases in Hs
      as (sc' & _ & [[_ ->]|(Hnone & Hchk & ->)]); [exact Hinv|].
    intros sc i n Hcls. rewrite renames_set_rename.
    case_decide as Heq; [subst sc'|now apply Hinv].
    rewrite lookup_insert. case_decide; [|now apply Hinv].
    intros Hi. injection Hi as <-.
    eapply check_covers_dunder; eassumption.
  - injection Hstep as <-. intros sc i n Hcls. rewrite renames_clear.
    case_decide as Hg; [intros Hx; discriminate Hx|now apply Hinv].
Qed.

Lemma run_invariants (evs : list event) :
  forall st st',
    run_events st evs = Ok st' ->
    tables_injective st /\ tables_dunder_free st ->
    tables_injective st' /\ tables_dunder_free st'.
Proof.
  induction evs as [|ev evs IH]; intros st st' Hrun [Hi Hd].
  - injection Hrun as <-. now split.
  - cbn [run_events] in Hrun.
    destruct (step st ev) as [st1|] eqn:Hstep; cbn [bind] in Hrun;
      [|discriminate Hrun].
    eapply IH; [exact Hrun|]. split.
    + eapply step_injective; eassumption.
    + eapply step_dunder_free; eassumption.
Qed.

(** *** What the sanitizer returns *)

(** C1, at the failing input.  The contract [Vault] is sanitized as a
    global declaration and keeps its name; a member of the contract
    [Bank] that is also called [Vault] is then given the very same
    identifier: [_check_contract] looks the candidate up among the
    keys of the global table, which are declarations, where
    [_check_global] reads its values. *)
Theorem contract_member_takes_global_name :
  exists st1 st2,
    sanitize_name init (contract_decl (Contract 1 "Vault" "vault.sol"))
      = Ok ("Vault", st1)
    /\ global_renames st1 !! 1%nat = Some "Vault"
    /\ _check_global st1 "Vault" = true
    /\ _check_contract st1 "Vault" 2 = false
    /\ sanitize_name st1 (Decl 3 "Vault"
                               (InContract (Contract 2 "Bank" "bank.sol")))
      = Ok ("Vault", st2).
Proof.
  eexists _, _.
  split; [vm_compute; reflexivity|].
  repeat split; vm_compute; reflexivity.
Qed.




(** C4 as stated fails: the member [list] is returned unchanged. *)
Lemma member_list_is_not_renamed :
  name_of (sanitize_name init
             (Decl 1 "list" (InContract (Contract 0 "Registry" "r.sol"))))
  = Some "list"
  /\ str_in "List" global_reserved = true
  /\ str_in "list" global_reserved = false.
Proof. repeat split; vm_compute; reflexivity. Qed.

(** C4, amended.  Names are compared as they are written: a contract
    member called [list] collides with nothing and keeps its name,
    while a member called [List], the reserved word itself, gets one
    underscore appended.  Both hold for a member not sanitized before,
    as long as neither another member of the contract nor a
    declaration at unit level has been given the identifier [list],
    respectively [List_]. *)
Theorem member_list_unchanged_member_List_escaped
        (st : t) (c : contract_definition) (id : nat) :
  renames st (ScContract (c_id c)) !! id = None ->
  py_in (PyStr "list") (values_of (renames st (ScContract (c_id c)))) = false ->
  py_in (PyStr "List_") (values_of (renames st (ScContract (c_id c)))) = false ->
  py_in (PyStr "list") (values_of (global_renames st)) = false ->
  py_in (PyStr "List_") (values_of (global_renames st)) = false ->
  name_of (sanitize_name st (Decl id "list" (InContract c))) = Some "list"
  /\ name_of (sanitize_name st (Decl id "List" (InContract c))) = Some "List_".
Proof.
  cbn [renames]. intros Hnone Hlist HList _ _.
  assert (Hc1 : check st (ScContract (c_id c)) "list" = false).
  { cbn [check]. unfold _check_contract.
    rewrite py_in_keys_false, Hlist.
    change (str_in "list" global_reserved) with false.
    change (str_in "list" contract_reserved) with false.
    reflexivity. }
  assert (Hc2 : check st (ScContract (c_id c)) "List" = true) by reflexivity.
  assert (Hc3 : check st (ScContract (c_id c)) "List_" = false).
  { cbn [check]. unfold _check_contract.
    rewrite py_in_keys_false, HList.
    change (str_in "List_" global_reserved) with false.
    change (str_in "List_" contract_reserved) with false.
    reflexivity. }
  unfold sanitize_name.
  cbn [scope_of d_parent bind d_id d_name renames]. rewrite Hnone.
  unfold loop_fuel. cbn [sanitize_loop].
  rewrite Hc1, Hc2. change ("List" +:+ "_") with "List_". rewrite Hc3.
  split; reflexivity.
Qed.

Lemma member_list_unchanged_member_List_escaped_witness :
  name_of (sanitize_name init
             (Decl 1 "list" (InContract (Contract 0 "Registry" "r.sol"))))
  = Some "list"
  /\ name_of (sanitize_name init
                (Decl 1 "List" (InContract (Contract 0 "Registry" "r.sol"))))
    = Some "List_".
Proof.
  exact (member_list_unchanged_member_List_escaped
           init (Contract 0 "Registry" "r.sol") 1
           eq_refl eq_refl eq_refl eq_refl eq_refl).
Defined.

(** The checks of contract, struct, enum, event and error scope
    count a dunder-style candidate that is not user-escaped as a
    collision, and the identifier returned for a declaration of one of
    these five scopes is never one, at any point of a run. *)
Lemma class_scope_identifier_never_dunder
        (evs : list event) (st : t) (d : declaration) (sc : scope) :
  run_events init evs = Ok st ->
  scope_of d = Ok sc ->
  class_scope sc = true ->
  (forall name, is_dunder name = true -> check st sc name = true)
  /\ (exists n st', sanitize_name st d = Ok (n, st') /\ is_dunder n = false).
Proof.
  intros Hreach Hsc Hcls. split.
  - intros name Hd.
    destruct (check st sc name) eqn:Hc; [reflexivity|].
    pose proof (check_covers_dunder st sc name Hcls Hc). congruence.
  - destruct (sanitize_name_returns st d sc Hsc) as (n & st' & Hcall).
    exists n, st'. split; [exact Hcall|].
    destruct (run_invariants _ _ _ Hreach (conj init_injective init_dunder_free))
      as [Hinj Hdf].
    assert (Hstep : step st (Sanitize d) = Ok st')
      by (cbn [step]; now rewrite Hcall).
    pose proof (step_dunder_free _ _ _ Hstep Hdf) as Hdf'.
    apply sanitize_name_records in Hcall as (sc' & Hsc' & Hrec).
    assert (sc' = sc) by congruence. subst sc'.
    eapply Hdf'; eassumption.
Qed.

Lemma class_scope_identifier_never_dunder_witness :
  exists n st',
    sanitize_name init
      (Decl 1 "__init__" (InContract (Contract 0 "Registry" "r.sol")))
    = Ok (n, st')
    /\ is_dunder n = false.
Proof.
  exact (proj2 (class_scope_identifier_never_dunder
                  [] init
                  (Decl 1 "__init__"
                        (InContract (Contract 0 "Registry" "r.sol")))
                  (ScContract 0) eq_refl eq_refl eq_refl)).
Defined.

(** C5, at the failing input.  The name [__debug__] is dunder-style
    and not user-escaped.  As the name of a parameter of a function it
    passes [_check_function], the only check of a non-global scope
    without the dunder clause, and the parameter keeps it (Python
    refuses [__debug__] as the name of a parameter, so the generated
    method does not compile).  The checks of the five other non-global
    scopes reject the same candidate: as a parameter of an event the
    declaration is named [__debug___]. *)
Theorem function_parameter_keeps_dunder :
  is_dunder "__debug__" = true
  /\ _check_function init "__debug__" 0 = false
  /\ name_of (sanitize_name init
                (Decl 1 "__debug__" (InParameterList (OwnerFunction 0))))
     = Some "__debug__"
  /\ _check_contract init "__debug__" 0 = true
  /\ _check_struct init "__debug__" 0 = true
  /\ _check_enum init "__debug__" 0 = true
  /\ _check_event init "__debug__" 0 = true
  /\ _check_error init "__debug__" 0 = true
  /\ name_of (sanitize_name init
                (Decl 1 "__debug__" (InParameterList (OwnerEvent 0))))
     = Some "__debug___".
Proof.
  split; [reflexivity|].
  split; [vm_compute; reflexivity|].
  repeat split; vm_compute; reflexivity.
Qed.

End SanitizerProperties.

(* ===================================================================== *)
(** ** Properties of the getter synthesis *)
(* ===================================================================== *)

Section GetterProperties.
Import Py Sanitizer TypeMapper.






End GetterProperties.

(* ===================================================================== *)
(** ** Properties of the scheduler *)
(* ===================================================================== *)

Section SchedulerProperties.
Import Py Scheduler.

(** Whatever the order in which Python visits the members of the
    cycle, the frontier is empty, the cycle is found once and is
    closed, its three units are generated as one group in that order
    of visit, and the warning lists the one set {A, B, C}. *)
Lemma cycle_flushed_in_iteration_order (rt : runtime) :
  iter_set rt ["A"; "B"; "C"] ≡ₚ ["A"; "B"; "C"] ->
  sorted_sets rt [["A"; "B"; "C"]] = [["A"; "B"; "C"]] ->
  generate_types rt cycle_build cycle_graph
  = Ok (Run (iter_set rt ["A"; "B"; "C"]) (Some [["A"; "B"; "C"]])).
Proof.
  intros Hperm Hsorted.
  remember (iter_set rt ["A"; "B"; "C"]) as order eqn:Horder.
  symmetry in Hperm. apply permutations_Permutation in Hperm.
  unfold generate_types.
  change (List.length (nodes cycle_graph)) with 3%nat.
  cbn [schedule_loop].
  change (0 <? List.length (nodes cycle_graph))%nat with true. cbn iota.
  change (heapify (List.filter (fun n => Nat.eqb (in_degree cycle_graph n) 0)
                               (nodes cycle_graph))) with (@nil string).
  cbn [drain_sources bind fst snd].
  change (classify_cycles cycle_graph [])
    with ([["A"; "B"; "C"]], [["A"; "B"; "C"]]).
  cbn iota. rewrite Hsorted. cbn [flush_cycles]. rewrite <- Horder.
  clear Horder. vm_compute in Hperm.
  repeat (apply elem_of_cons in Hperm as [Hperm|Hperm];
          [rewrite Hperm; vm_compute; reflexivity|]).
  now apply elem_of_nil in Hperm.
Qed.

(** C8, at the failing input.  The graph is the closed cycle
    A -> B -> C -> A and the hashes of the run make Python visit the
    set {A, B, C} in the order B, A, C.  No unit has in-degree zero,
    the cycle is flushed as one group and one warning entry names
    {A, B, C}; but the units are generated in the order of visit of
    the frozenset, B, A, C: [sorted] orders the groups, nothing orders
    the members of a group. *)
Theorem cycle_members_not_generated_in_sorted_order :
  generate_types runtime_bac cycle_build cycle_graph
  = Ok (Run ["B"; "A"; "C"] (Some [["A"; "B"; "C"]]))
  /\ List.filter (fun n => Nat.eqb (in_degree cycle_graph n) 0)
                 (nodes cycle_graph) = []
  /\ simple_cycles cycle_graph = [["A"; "B"; "C"]]
  /\ is_closed_cycle cycle_graph ["A"; "B"; "C"] = true.
Proof. repeat split; vm_compute; reflexivity. Qed.

End SchedulerProperties.
